(** * The embedded Python lifecycle of [pkg/collector/python/init.go]

    A shallow embedding of [Initialize], [Destroy], [GetSix] and
    [sendTelemetry].  The package keeps its state in package-level variables
    and talks to the outside through cgo calls into the [six] library, the
    agent configuration, the filesystem, the cache and the aggregator.  The
    variables become a record [World]; every call that leaves the package is
    recorded, in program order, in the [trace] of that record, and the value
    it returns is read from an [Env] of oracles. *)

From Stdlib Require Import ZArith List String Ascii Bool Lia QArith_base DecimalString.
Import ListNotations.

Local Open Scope string_scope.
Local Open Scope Z_scope.

(** ** Values crossing the cgo boundary *)

(** A [*C.six_t]: an address, [nil] being the null pointer. *)
Definition Ptr := Z.
Definition nil_ptr : Ptr := 0.

(** A Go [error] built by [fmt.Errorf]: its message. *)
Definition error := string.

(** The line feed, written ["\n"] in the source. *)
Definition LF : string := String "010"%char EmptyString.

(** [%d] of [fmt.Sprintf] and [fmt.Errorf]: signed decimal. *)
Definition fmt_d (z : Z) : string := NilZero.string_of_int (Z.to_int z).

(** A format that is literal text followed by one [%d], as every
    [fmt.Sprintf] and [fmt.Errorf] with a [%d] of this package is. *)
Definition Sprintf_d (text : string) (z : Z) : string := text ++ fmt_d z.

(** [C.GoString]: a null [char*] reads as the empty string. *)
Definition C_GoString (p : option string) : string :=
  match p with
  | Some s => s
  | None => ""
  end.

(** ** [strings.Replace]

    Strings are byte sequences.  [Replace_from] walks [s] from the left;
    [skip] counts the bytes of a matched [old] still to be dropped and [n] is
    the number of replacements left, a negative [n] meaning no limit. *)
Fixpoint Replace_from (old new : string) (skip : nat) (n : Z) (s : string) : string :=
  match s with
  | EmptyString => EmptyString
  | String c s' =>
      match skip with
      | S k => Replace_from old new k n s'
      | O =>
          if n =? 0 then s
          else if prefix old s
               then new ++ Replace_from old new (String.length old - 1)
                                        (if n <? 0 then n else n - 1) s'
               else String c (Replace_from old new 0 n s')
      end
  end.

(** An empty [old] makes Go insert [new] at every rune boundary; no call of
    this package passes one, and that case is left as the identity here. *)
Definition strings_Replace (s old new : string) (n : Z) : string :=
  if (old =? new)%string || (n =? 0) || (old =? "")%string then s
  else Replace_from old new 0 n s.

(** ** The [os] package: the outcome of [os.Stat] *)

(** The error of a failed [os.Stat], by the class of its underlying cause. *)
Inductive oserror : Type :=
| ErrNotExist
| ErrPermission
| ErrOther (msg : string).

(** [os.IsNotExist]: false on a nil error and on every error whose cause is
    not "does not exist". *)
Definition os_IsNotExist (err : option oserror) : bool :=
  match err with
  | Some ErrNotExist => true
  | _ => false
  end.

(** ** [version.Version] and [metrics.Serie] *)

Record Version : Type := {
  Major : Z;
  Minor : Z;
  Patch : Z
}.

Inductive APIMetricType : Type :=
| APIGaugeType
| APIRateType
| APICountType.

Record Point : Type := { Value : Q }.

Record Serie : Type := {
  Name : string;
  Points : list Point;
  Tags : list string;
  MType : APIMetricType
}.

(** ** Calls that leave the package *)

Inductive PyVersion : Type := Py2 | Py3.

(** The C helpers of the cgo preamble that bind callbacks into a handle. *)
Inductive CModule : Type :=
| CgoFree
| DatadogAgentModule
| AggregatorModule
| UtilModule
| TaggerModule
| ContainersModule
| kubeutilModule.

Inductive Event : Type :=
| EvMake (v : PyVersion) (home : string)        (* C.make2 / C.make3 *)
| EvExecutableFolder                            (* executable.Folder *)
| EvStat (path : string)                        (* os.Stat *)
| EvAddPythonPath (h : Ptr) (p : string)        (* C.add_python_path *)
| EvInit (h : Ptr)                              (* C.init *)
| EvIsInitialized (h : Ptr)                     (* C.is_initialized *)
| EvGetError (h : Ptr)                          (* C.get_error *)
| EvGetPyVersion (h : Ptr)                      (* C.get_py_version *)
| EvCacheSet (key value : string)               (* cache.Cache.Set *)
| EvAddRecurrentSeries (s : Serie)              (* aggregator.AddRecurrentSeries *)
| EvInitModule (m : CModule) (h : Ptr)          (* C.initXxxModule, C.initCgoFree *)
| EvInitContainerFilter                         (* initContainerFilter *)
| EvDestroy (h : Ptr).                          (* C.destroy *)

(** What the outside answers.  [pythonHome2] and [pythonHome3] are the
    link-time constants, never assigned by the package. *)
Record Env : Type := {
  config_python_version : Z;                    (* config.Datadog.GetInt("python_version") *)
  pythonHome2 : string;
  pythonHome3 : string;
  C_make2 : string -> Ptr;
  C_make3 : string -> Ptr;
  runtime_GOOS : string;
  executable_Folder : string * option error;
  filepath_Join : list string -> string;
  os_Stat : string -> option oserror;
  C_is_initialized : Ptr -> Z;
  C_get_error : Ptr -> option string;
  C_get_py_version : Ptr -> option string;
  cache_BuildAgentKey : string -> string;
  version_New : Version + error                 (* version.New(version.AgentVersion, version.Commit) *)
}.

(** ** Package-level variables *)

Record World : Type := {
  PythonVersion : string;
  PythonHome : string;
  PythonPath : string;
  six : Ptr;
  trace : list Event
}.

(** The variables as the [var] block initialises them. *)
Definition start : World :=
  {| PythonVersion := ""; PythonHome := ""; PythonPath := "";
     six := nil_ptr; trace := [] |}.

Definition set_six (h : Ptr) (w : World) : World :=
  {| PythonVersion := PythonVersion w; PythonHome := PythonHome w;
     PythonPath := PythonPath w; six := h; trace := trace w |}.

Definition set_PythonHome (s : string) (w : World) : World :=
  {| PythonVersion := PythonVersion w; PythonHome := s;
     PythonPath := PythonPath w; six := six w; trace := trace w |}.

Definition set_PythonVersion (s : string) (w : World) : World :=
  {| PythonVersion := s; PythonHome := PythonHome w;
     PythonPath := PythonPath w; six := six w; trace := trace w |}.

Definition record (e : Event) (w : World) : World :=
  {| PythonVersion := PythonVersion w; PythonHome := PythonHome w;
     PythonPath := PythonPath w; six := six w; trace := (trace w ++ [e])%list |}.

(** ** A state and error monad for the function bodies

    [Err e] is a [return err]: the variables assigned so far stay assigned. *)
Inductive result (A : Type) : Type :=
| Ok (a : A)
| Err (e : error).
Arguments Ok {A} a.
Arguments Err {A} e.

Definition M (A : Type) : Type := World -> result A * World.

Definition ret {A} (a : A) : M A := fun w => (Ok a, w).

Definition bind {A B} (m : M A) (k : A -> M B) : M B :=
  fun w =>
    match m w with
    | (Ok a, w') => k a w'
    | (Err e, w') => (Err e, w')
    end.

Definition fail {A} (e : error) : M A := fun w => (Err e, w).
Definition read {A} (f : World -> A) : M A := fun w => (Ok (f w), w).
Definition modify (f : World -> World) : M unit := fun w => (Ok tt, f w).

(** An outside call: recorded, then answered. *)
Definition call {A} (e : Event) (a : A) : M A := fun w => (Ok a, record e w).

Notation "x <- m ;; k" := (bind m (fun x => k))
  (at level 61, m at next level, right associativity).
Notation "m ;; k" := (bind m (fun _ => k))
  (at level 61, right associativity).

Section Python.

Variable env : Env.

(** ** [sendTelemetry] *)
Definition sendTelemetry (pythonVersion : Z) : M unit :=
  let tags := [Sprintf_d "python_version:" pythonVersion] in
  let tags :=
    match version_New env with
    | inl agentVersion =>
        app tags [Sprintf_d "agent_version_major:" (Major agentVersion);
                  Sprintf_d "agent_version_minor:" (Minor agentVersion);
                  Sprintf_d "agent_version_patch:" (Patch agentVersion)]
    | inr _ => tags
    end in
  let serie := {| Name := "datadog.agent.python.version";
                  Points := [ {| Value := 1%Q |} ];
                  Tags := tags;
                  MType := APIGaugeType |} in
  call (EvAddRecurrentSeries serie) tt.

(** The [for _, p := range paths] loop of [Initialize]. *)
Fixpoint add_python_paths (paths : list string) : M unit :=
  match paths with
  | [] => ret tt
  | p :: ps =>
      h <- read six ;;
      call (EvAddPythonPath h p) tt ;;
      add_python_paths ps
  end.

(** ** [Initialize] *)
Definition Initialize (paths : list string) : M unit :=
  let pythonVersion := config_python_version env in
  (if pythonVersion =? 2 then
     h <- call (EvMake Py2 (pythonHome2 env)) (C_make2 env (pythonHome2 env)) ;;
     modify (set_six h) ;;
     modify (set_PythonHome (pythonHome2 env))
   else if pythonVersion =? 3 then
     h <- call (EvMake Py3 (pythonHome3 env)) (C_make3 env (pythonHome3 env)) ;;
     modify (set_six h) ;;
     modify (set_PythonHome (pythonHome3 env))
   else
     fail (Sprintf_d "unknown requested version of python: " pythonVersion)) ;;
  h <- read six ;;
  (if h =? nil_ptr
   then fail (Sprintf_d "could not init six lib for python version " pythonVersion)
   else ret tt) ;;
  (if (runtime_GOOS env =? "windows")%string then
     _here <- call EvExecutableFolder (fst (executable_Folder env)) ;;
     home <- read PythonHome ;;
     let marker := filepath_Join env [home; "lib"; "python2.7"] in
     err <- call (EvStat marker) (os_Stat env marker) ;;
     if os_IsNotExist err then modify (set_PythonHome _here) else ret tt
   else ret tt) ;;
  add_python_paths paths ;;
  h <- read six ;;
  call (EvInit h) tt ;;
  h <- read six ;;
  up <- call (EvIsInitialized h) (C_is_initialized env h) ;;
  (if up =? 0 then
     h <- read six ;;
     msg <- call (EvGetError h) (C_get_error env h) ;;
     fail (C_GoString msg)
   else ret tt) ;;
  h <- read six ;;
  res <- call (EvGetPyVersion h) (C_get_py_version env h) ;;
  match res with
  | Some raw =>
      modify (set_PythonVersion (strings_Replace raw LF "" (-1))) ;;
      let key := cache_BuildAgentKey env "pythonVersion" in
      v <- read PythonVersion ;;
      call (EvCacheSet key v) tt
  | None => ret tt
  end ;;
  sendTelemetry pythonVersion ;;
  h <- read six ;;
  call (EvInitModule CgoFree h) tt ;;
  call (EvInitModule DatadogAgentModule h) tt ;;
  call (EvInitModule AggregatorModule h) tt ;;
  call (EvInitModule UtilModule h) tt ;;
  call (EvInitModule TaggerModule h) tt ;;
  call EvInitContainerFilter tt ;;
  call (EvInitModule ContainersModule h) tt ;;
  call (EvInitModule kubeutilModule h) tt.

(** ** [Destroy] and [GetSix] *)
Definition Destroy : M unit :=
  h <- read six ;;
  if negb (h =? nil_ptr) then call (EvDestroy h) tt else ret tt.

Definition GetSix : M Ptr := read six.

End Python.

(** ** What one execution does

    [extend evs w] is [w] after the calls [evs]; [calls_of m w] is the list of
    calls that running [m] from [w] adds to the trace. *)
Definition extend (evs : list Event) (w : World) : World :=
  {| PythonVersion := PythonVersion w; PythonHome := PythonHome w;
     PythonPath := PythonPath w; six := six w; trace := (trace w ++ evs)%list |}.

Definition calls_of {A} (m : M A) (w : World) : list Event :=
  skipn (List.length (trace w)) (trace (snd (m w))).

Definition is_InitModule (e : Event) : bool :=
  match e with
  | EvInitModule _ _ => true
  | _ => false
  end.

Definition is_AddRecurrentSeries (e : Event) : bool :=
  match e with
  | EvAddRecurrentSeries _ => true
  | _ => false
  end.

Definition is_Make (e : Event) : bool :=
  match e with
  | EvMake _ _ => true
  | _ => false
  end.

Definition is_CacheSet (e : Event) : bool :=
  match e with
  | EvCacheSet _ _ => true
  | _ => false
  end.

(** The bytes of a string, for statements about its characters. *)
Definition bytes (s : string) : list ascii := list_ascii_of_string s.

Definition is_LF (c : ascii) : bool := Ascii.eqb c "010"%char.

Definition not_LF (c : ascii) : bool := negb (is_LF c).

(** ** [Initialize], outcome by outcome

    The closed form of [Initialize] that the proofs work with; it is shown
    equal to [Initialize] in [Initialize_outcome]. *)
Section Phases.

Variable env : Env.

(** The version, compiled-in home and handle of the configured version, when
    it is one of the two [Initialize] accepts. *)
Definition selected : option (PyVersion * string * Ptr) :=
  let v := config_python_version env in
  if v =? 2 then Some (Py2, pythonHome2 env, C_make2 env (pythonHome2 env))
  else if v =? 3 then Some (Py3, pythonHome3 env, C_make3 env (pythonHome3 env))
  else None.

Definition on_windows : bool := (runtime_GOOS env =? "windows")%string.

Definition marker (home : string) : string :=
  filepath_Join env [home; "lib"; "python2.7"].

Definition override_calls (home : string) : list Event :=
  if on_windows then [EvExecutableFolder; EvStat (marker home)] else [].

Definition published_home (home : string) : string :=
  if on_windows && os_IsNotExist (os_Stat env (marker home))
  then fst (executable_Folder env) else home.

Definition boot_calls (h : Ptr) (paths : list string) : list Event :=
  (map (EvAddPythonPath h) paths ++ [EvInit h; EvIsInitialized h])%list.

Definition version_calls (h : Ptr) : list Event :=
  EvGetPyVersion h ::
  match C_get_py_version env h with
  | Some raw => [EvCacheSet (cache_BuildAgentKey env "pythonVersion")
                            (strings_Replace raw LF "" (-1))]
  | None => []
  end.

Definition published_version (h : Ptr) (before : string) : string :=
  match C_get_py_version env h with
  | Some raw => strings_Replace raw LF "" (-1)
  | None => before
  end.

Definition telemetry_calls : list Event :=
  calls_of (sendTelemetry env (config_python_version env)) start.

Definition module_calls (h : Ptr) : list Event :=
  [EvInitModule CgoFree h; EvInitModule DatadogAgentModule h;
   EvInitModule AggregatorModule h; EvInitModule UtilModule h;
   EvInitModule TaggerModule h; EvInitContainerFilter;
   EvInitModule ContainersModule h; EvInitModule kubeutilModule h].

(** The variables after the assignments of a run that created [h]. *)
Definition assigned (h : Ptr) (home version : string) (w : World) : World :=
  {| PythonVersion := version; PythonHome := home;
     PythonPath := PythonPath w; six := h; trace := trace w |}.

(** The calls of a run that created a non-null [h], up to and including the
    [is_initialized] query. *)
Definition calls_to_boot (pv : PyVersion) (home : string) (h : Ptr)
    (paths : list string) : list Event :=
  (EvMake pv home :: override_calls home ++ boot_calls h paths)%list.

(** The calls after a boot that came up. *)
Definition calls_after_boot (h : Ptr) : list Event :=
  (version_calls h ++ telemetry_calls ++ module_calls h)%list.

Definition outcome (paths : list string) (w : World) : result unit * World :=
  match selected with
  | None =>
      (Err (Sprintf_d "unknown requested version of python: "
                      (config_python_version env)), w)
  | Some (pv, home, h) =>
      if h =? nil_ptr then
        (Err (Sprintf_d "could not init six lib for python version "
                        (config_python_version env)),
         extend [EvMake pv home] (assigned h home (PythonVersion w) w))
      else if C_is_initialized env h =? 0 then
        (Err (C_GoString (C_get_error env h)),
         extend (calls_to_boot pv home h paths ++ [EvGetError h])
                (assigned h (published_home home) (PythonVersion w) w))
      else
        (Ok tt,
         extend (calls_to_boot pv home h paths ++ calls_after_boot h)
                (assigned h (published_home home)
                          (published_version h (PythonVersion w)) w))
  end.

End Phases.

(** The calls of one [Initialize]. *)
Definition Initialize_calls (env : Env) (paths : list string) : list Event :=
  match selected env with
  | None => []
  | Some (pv, home, h) =>
      if h =? nil_ptr then [EvMake pv home]
      else if C_is_initialized env h =? 0
           then (calls_to_boot env pv home h paths ++ [EvGetError h])%list
           else (calls_to_boot env pv home h paths ++ calls_after_boot env h)%list
  end.

(** ** Environments that differ in one answer *)

Definition with_os_Stat (f : string -> option oserror) (env : Env) : Env :=
  {| config_python_version := config_python_version env;
     pythonHome2 := pythonHome2 env;
     pythonHome3 := pythonHome3 env;
     C_make2 := C_make2 env;
     C_make3 := C_make3 env;
     runtime_GOOS := runtime_GOOS env;
     executable_Folder := executable_Folder env;
     filepath_Join := filepath_Join env;
     os_Stat := f;
     C_is_initialized := C_is_initialized env;
     C_get_error := C_get_error env;
     C_get_py_version := C_get_py_version env;
     cache_BuildAgentKey := cache_BuildAgentKey env;
     version_New := version_New env |}.

Definition with_version_New (r : Version + error) (env : Env) : Env :=
  {| config_python_version := config_python_version env;
     pythonHome2 := pythonHome2 env;
     pythonHome3 := pythonHome3 env;
     C_make2 := C_make2 env;
     C_make3 := C_make3 env;
     runtime_GOOS := runtime_GOOS env;
     executable_Folder := executable_Folder env;
     filepath_Join := filepath_Join env;
     os_Stat := os_Stat env;
     C_is_initialized := C_is_initialized env;
     C_get_error := C_get_error env;
     C_get_py_version := C_get_py_version env;
     cache_BuildAgentKey := cache_BuildAgentKey env;
     version_New := r |}.

(** ** Sample installations *)

Definition agent_6_14 : Version + error :=
  inl {| Major := 6; Minor := 14; Patch := 0 |}.

(** An agent on Linux: embedded interpreters under [/opt/datadog-agent],
    everything on disk. *)
Definition linux_agent (v up : Z) (raw : option string)
    (agent : Version + error) : Env :=
  {| config_python_version := v;
     pythonHome2 := "/opt/datadog-agent/embedded2";
     pythonHome3 := "/opt/datadog-agent/embedded3";
     C_make2 := fun _ => 4096;
     C_make3 := fun _ => 8192;
     runtime_GOOS := "linux";
     executable_Folder := ("/opt/datadog-agent/bin/agent", None);
     filepath_Join := String.concat "/";
     os_Stat := fun _ => None;
     C_is_initialized := fun _ => up;
     C_get_error := fun _ => Some "could not load runtime python for version 3";
     C_get_py_version := fun _ => raw;
     cache_BuildAgentKey := fun k => "agent/" ++ k;
     version_New := agent |}.

(** An agent on Windows, built for [C:\omnibus-ruby\embedded2] and
    [embedded3] and installed under [C:\Program Files]; [stat] answers the
    existence probes. *)
Definition windows_agent (v : Z) (stat : string -> option oserror) : Env :=
  {| config_python_version := v;
     pythonHome2 := "C:\omnibus-ruby\embedded2";
     pythonHome3 := "C:\omnibus-ruby\embedded3";
     C_make2 := fun _ => 4096;
     C_make3 := fun _ => 8192;
     runtime_GOOS := "windows";
     executable_Folder := ("C:\Program Files\Datadog\Datadog Agent\embedded", None);
     filepath_Join := String.concat "\";
     os_Stat := stat;
     C_is_initialized := fun _ => 1;
     C_get_error := fun _ => None;
     C_get_py_version := fun _ => Some ("3.8.10" ++ LF);
     cache_BuildAgentKey := fun k => "agent/" ++ k;
     version_New := agent_6_14 |}.

(** A disk where only the Python 3 standard library of the compiled-in home
    exists. *)
Definition only_python3 (path : string) : option oserror :=
  if (path =? "C:\omnibus-ruby\embedded3\lib\python3.7")%string then None
  else Some ErrNotExist.

(** A disk whose directories may not be read. *)
Definition access_denied (path : string) : option oserror := Some ErrPermission.

(** A disk with nothing where the build expected it. *)
Definition relocated (path : string) : option oserror := Some ErrNotExist.

(** ** Further observations on a run *)



(** The two calls of the Windows block: [executable.Folder] and [os.Stat]. *)
Definition is_probe (e : Event) : bool :=
  match e with
  | EvExecutableFolder => true
  | EvStat _ => true
  | _ => false
  end.

Definition with_executable_Folder (r : string * option error) (env : Env) : Env :=
  {| config_python_version := config_python_version env;
     pythonHome2 := pythonHome2 env;
     pythonHome3 := pythonHome3 env;
     C_make2 := C_make2 env;
     C_make3 := C_make3 env;
     runtime_GOOS := runtime_GOOS env;
     executable_Folder := r;
     filepath_Join := filepath_Join env;
     os_Stat := os_Stat env;
     C_is_initialized := C_is_initialized env;
     C_get_error := C_get_error env;
     C_get_py_version := C_get_py_version env;
     cache_BuildAgentKey := cache_BuildAgentKey env;
     version_New := version_New env |}.

(** An installation whose [six] library answers [make2] and [make3] by
    [mk]. *)
Definition with_make (mk : string -> Ptr) (env : Env) : Env :=
  {| config_python_version := config_python_version env;
     pythonHome2 := pythonHome2 env;
     pythonHome3 := pythonHome3 env;
     C_make2 := mk;
     C_make3 := mk;
     runtime_GOOS := runtime_GOOS env;
     executable_Folder := executable_Folder env;
     filepath_Join := filepath_Join env;
     os_Stat := os_Stat env;
     C_is_initialized := C_is_initialized env;
     C_get_error := C_get_error env;
     C_get_py_version := C_get_py_version env;
     cache_BuildAgentKey := cache_BuildAgentKey env;
     version_New := version_New env |}.

(** ** The C helpers of the cgo preamble

    Each helper is a sequence of [set_..._cb(six, callback)] calls; it is
    given here as that sequence, setter and callback by their names in the
    source. *)
Module Cgo.

Inductive Setter : Type :=
| set_cgo_free_cb
| set_get_version_cb
| set_get_hostname_cb
| set_get_clustername_cb
| set_headers_cb
| set_log_cb
| set_get_config_cb
| set_set_external_tags_cb
| set_submit_metric_cb
| set_submit_service_check_cb
| set_submit_event_cb
| set_get_subprocess_output_cb
| set_tags_cb
| set_is_excluded_cb
| set_get_connection_info_cb.

Inductive Callback : Type :=
| free
| GetVersion
| GetHostname
| GetClusterName
| Headers
| GetConfig
| LogMessage
| SetExternalTags
| SubmitMetric
| SubmitServiceCheck
| SubmitEvent
| GetSubprocessOutput
| Tags
| IsContainerExcluded
| GetKubeletConnectionInfo.

Definition initCgoFree : list (Setter * Callback) :=
  [(set_cgo_free_cb, free)].

Definition initDatadogAgentModule : list (Setter * Callback) :=
  [(set_get_version_cb, GetVersion);
   (set_get_hostname_cb, GetHostname);
   (set_get_clustername_cb, GetClusterName);
   (set_headers_cb, Headers);
   (set_log_cb, LogMessage);
   (set_get_config_cb, GetConfig);
   (set_set_external_tags_cb, SetExternalTags)].

Definition initAggregatorModule : list (Setter * Callback) :=
  [(set_submit_metric_cb, SubmitMetric);
   (set_submit_service_check_cb, SubmitServiceCheck);
   (set_submit_event_cb, SubmitEvent)].

Definition initUtilModule : list (Setter * Callback) :=
  [(set_get_subprocess_output_cb, GetSubprocessOutput)].

Definition initTaggerModule : list (Setter * Callback) :=
  [(set_tags_cb, Tags)].

Definition initContainersModule : list (Setter * Callback) :=
  [(set_is_excluded_cb, IsContainerExcluded)].

Definition initkubeutilModule : list (Setter * Callback) :=
  [(set_get_connection_info_cb, GetKubeletConnectionInfo)].

(** The body of the helper that a [C.initXxx(six)] call of [Initialize]
    runs. *)
Definition helper (m : CModule) : list (Setter * Callback) :=
  match m with
  | CgoFree => initCgoFree
  | DatadogAgentModule => initDatadogAgentModule
  | AggregatorModule => initAggregatorModule
  | UtilModule => initUtilModule
  | TaggerModule => initTaggerModule
  | ContainersModule => initContainersModule
  | kubeutilModule => initkubeutilModule
  end.

(** The setter calls made on behalf of one call of the package, with the
    handle they are made on. *)
Definition setters_of (e : Event) : list (Ptr * Setter * Callback) :=
  match e with
  | EvInitModule m h => map (fun sc => (h, fst sc, snd sc)) (helper m)
  | _ => []
  end.

(** The setter calls of a run, in program order. *)
Definition bindings (calls : list Event) : list (Ptr * Setter * Callback) :=
  flat_map setters_of calls.

End Cgo.

(** * Properties *)

(** ** The monad and the trace *)

Lemma skipn_length_app {A} (l evs : list A) :
  skipn (List.length l) (l ++ evs) = evs.
Proof.
  induction l as [|a l IH]; [reflexivity | exact IH].
Qed.

Lemma calls_of_extend {A} (m : M A) (w w' : World) (r : result A) (evs : list Event) :
  m w = (r, extend evs w') -> trace w' = trace w -> calls_of m w = evs.
Proof.
  intros Hm Ht. unfold calls_of. rewrite Hm. cbn [snd extend trace].
  rewrite Ht. apply skipn_length_app.
Qed.

Lemma add_python_paths_run paths : forall w,
  add_python_paths paths w = (Ok tt, extend (map (EvAddPythonPath (six w)) paths) w).
Proof.
  induction paths as [|p ps IH]; intros w.
  - cbn. unfold ret, extend. rewrite app_nil_r. now destruct w.
  - cbn [add_python_paths map]. unfold bind at 1 2. unfold read, call.
    rewrite IH. unfold extend, record; cbn. now rewrite <- app_assoc.
Qed.

Lemma sendTelemetry_run env w :
  sendTelemetry env (config_python_version env) w
  = (Ok tt, extend (telemetry_calls env) w).
Proof.
  reflexivity.
Qed.

Ltac run :=
  cbv [bind call modify read ret fail record extend assigned set_six
       set_PythonHome set_PythonVersion
       PythonVersion PythonHome PythonPath six trace].

Ltac same_trace :=
  f_equal; f_equal; cbn [app]; repeat rewrite <- app_assoc; cbn [app];
  reflexivity.

(** [Initialize] is its closed form. *)
Lemma Initialize_outcome env paths w :
  Initialize env paths w = outcome env paths w.
Proof.
  destruct w as [version0 home0 path0 six0 trace0].
  unfold Initialize, outcome, selected, calls_to_boot, calls_after_boot.
  destruct (config_python_version env =? 2) eqn:E2;
    [| destruct (config_python_version env =? 3) eqn:E3 ];
    [ set (pv := Py2); set (home := pythonHome2 env);
      set (h := C_make2 env home)
    | set (pv := Py3); set (home := pythonHome3 env);
      set (h := C_make3 env home)
    | reflexivity ].
  all: run; destruct (h =? nil_ptr) eqn:Hn; [ reflexivity |].
  all: unfold override_calls, published_home, marker, on_windows, boot_calls,
         version_calls, published_version.
  all: destruct (runtime_GOOS env =? "windows")%string; cbn [andb];
    [ destruct (os_IsNotExist
                  (os_Stat env (filepath_Join env [home; "lib"; "python2.7"]))) |].
  all: rewrite add_python_paths_run; run;
    destruct (C_is_initialized env h =? 0); [ same_trace |].
  all: destruct (C_get_py_version env h);
    rewrite sendTelemetry_run; run; unfold module_calls; same_trace.
Qed.

Lemma calls_of_Initialize env paths w :
  calls_of (Initialize env paths) w = Initialize_calls env paths.
Proof.
  unfold Initialize_calls.
  pose proof (Initialize_outcome env paths w) as H. unfold outcome in H.
  destruct (selected env) as [[[pv home] h]|].
  - destruct (h =? nil_ptr).
    + eapply calls_of_extend; [exact H | reflexivity].
    + destruct (C_is_initialized env h =? 0);
        (eapply calls_of_extend; [exact H | reflexivity]).
  - unfold calls_of. rewrite H. cbn [snd].
    rewrite <- (app_nil_r (trace w)) at 2. apply skipn_length_app.
Qed.

Lemma trace_Initialize env paths w :
  trace (snd (Initialize env paths w)) = (trace w ++ Initialize_calls env paths)%list.
Proof.
  unfold Initialize_calls. rewrite Initialize_outcome. unfold outcome.
  destruct (selected env) as [[[pv home] h]|]; cbn [snd].
  - destruct (h =? nil_ptr); [reflexivity |].
    destruct (C_is_initialized env h =? 0); reflexivity.
  - now rewrite app_nil_r.
Qed.

(** ** [Destroy] and [GetSix] *)

Lemma Destroy_run w :
  Destroy w = (Ok tt, if six w =? nil_ptr then w else record (EvDestroy (six w)) w).
Proof.
  unfold Destroy, bind, read, call, ret.
  now destruct (six w =? nil_ptr).
Qed.

Lemma six_Destroy w : six (snd (Destroy w)) = six w.
Proof.
  rewrite Destroy_run. cbn [snd]. now destruct (six w =? nil_ptr).
Qed.

(** A run of [Initialize] that returns nil leaves a non-null handle in [six]. *)
Lemma Initialize_Ok_six env paths w :
  fst (Initialize env paths w) = Ok tt ->
  six (snd (Initialize env paths w)) <> nil_ptr.
Proof.
  rewrite Initialize_outcome. unfold outcome.
  destruct (selected env) as [[[pv home] h]|]; [| discriminate].
  destruct (h =? nil_ptr) eqn:Hn; [discriminate |].
  destruct (C_is_initialized env h =? 0); [discriminate |].
  intros _. cbn. now apply Z.eqb_neq.
Qed.



(** C9.  [Destroy] does not assign [six]: [GetSix] returns after it what it
    returned before it; after a run of [Initialize] that returned nil that
    is the same non-null handle, before [Destroy] and after it. *)
Theorem Destroy_keeps_six w :
  fst (GetSix (snd (Destroy w))) = fst (GetSix w) /\
  forall env paths,
    fst (Initialize env paths w) = Ok tt ->
    exists h, h <> nil_ptr /\
      fst (GetSix (snd (Initialize env paths w))) = Ok h /\
      fst (GetSix (snd (Destroy (snd (Initialize env paths w))))) = Ok h.
Proof.
  split.
  - unfold GetSix, read. cbn [fst]. now rewrite six_Destroy.
  - intros env paths Hok.
    exists (six (snd (Initialize env paths w))).
    split; [now apply Initialize_Ok_six |].
    unfold GetSix, read. cbn [fst]. now rewrite six_Destroy.
Qed.

Lemma Destroy_keeps_six_witness :
  fst (Initialize (linux_agent 3 1 (Some ("3.8.10" ++ LF)) agent_6_14)
                  ["/etc/datadog-agent/checks.d"] start) = Ok tt /\
  exists h, h <> nil_ptr /\
    fst (GetSix (snd (Initialize (linux_agent 3 1 (Some ("3.8.10" ++ LF)) agent_6_14)
                                 ["/etc/datadog-agent/checks.d"] start))) = Ok h /\
    fst (GetSix (snd (Destroy (snd (Initialize
           (linux_agent 3 1 (Some ("3.8.10" ++ LF)) agent_6_14)
           ["/etc/datadog-agent/checks.d"] start))))) = Ok h.
Proof.
  split; [reflexivity |].
  apply (proj2 (Destroy_keeps_six start)). reflexivity.
Defined.

(** ** The configured version *)

(** C2.  With [python_version] 2 the run starts by [C.make2] on
    [pythonHome2] and [six] is what that returns; with 3, by [C.make3] on
    [pythonHome3].  With any other value [Initialize] returns the error
    "unknown requested version of python: <value>", makes no call and assigns
    nothing, so [GetSix] returns what it returned before, which in a fresh
    process is nil. *)
Theorem Initialize_version_selection env paths w :
  match config_python_version env with
  | 2 =>
      (exists rest, calls_of (Initialize env paths) w
                    = EvMake Py2 (pythonHome2 env) :: rest) /\
      six (snd (Initialize env paths w)) = C_make2 env (pythonHome2 env)
  | 3 =>
      (exists rest, calls_of (Initialize env paths) w
                    = EvMake Py3 (pythonHome3 env) :: rest) /\
      six (snd (Initialize env paths w)) = C_make3 env (pythonHome3 env)
  | v =>
      Initialize env paths w
        = (Err (Sprintf_d "unknown requested version of python: " v), w) /\
      calls_of (Initialize env paths) w = [] /\
      fst (GetSix (snd (Initialize env paths w))) = fst (GetSix w) /\
      fst (GetSix (snd (Initialize env paths start))) = Ok nil_ptr
  end.
Proof.
  assert (Hmake : forall pv home h,
    selected env = Some (pv, home, h) ->
    (exists rest, calls_of (Initialize env paths) w = EvMake pv home :: rest) /\
    six (snd (Initialize env paths w)) = h).
  { intros pv home h Hs. rewrite calls_of_Initialize, Initialize_outcome.
    unfold Initialize_calls, outcome, calls_to_boot. rewrite Hs.
    destruct (h =? nil_ptr); [split; [eexists |]; reflexivity |].
    destruct (C_is_initialized env h =? 0); (split; [eexists |]; reflexivity). }
  assert (Hnone :
    selected env = None ->
    Initialize env paths w
      = (Err (Sprintf_d "unknown requested version of python: "
                        (config_python_version env)), w) /\
    calls_of (Initialize env paths) w = [] /\
    fst (GetSix (snd (Initialize env paths w))) = fst (GetSix w) /\
    fst (GetSix (snd (Initialize env paths start))) = Ok nil_ptr).
  { intros Hs. rewrite calls_of_Initialize, !Initialize_outcome.
    unfold Initialize_calls, outcome. rewrite Hs. repeat split. }
  unfold selected in Hmake, Hnone.
  destruct (config_python_version env) as [|p|p];
    [apply Hnone; reflexivity | | apply Hnone; reflexivity].
  destruct p as [[p|p|]|[p|p|]|];
    try (apply Hnone; reflexivity); apply Hmake; reflexivity.
Qed.

Example Initialize_version_5 :
  Initialize (linux_agent 5 1 (Some ("3.8.10" ++ LF)) agent_6_14) [] start
  = (Err "unknown requested version of python: 5", start).
Proof. reflexivity. Qed.

Example Initialize_version_0 :
  Initialize (linux_agent 0 1 None agent_6_14) ["/etc/checks.d"] start
  = (Err "unknown requested version of python: 0", start).
Proof. reflexivity. Qed.

Example Initialize_version_negative :
  Initialize (linux_agent (-3) 1 None agent_6_14) [] start
  = (Err "unknown requested version of python: -3", start).
Proof. reflexivity. Qed.

Example Initialize_version_4 :
  Initialize (windows_agent 4 relocated) [] start
  = (Err "unknown requested version of python: 4", start).
Proof. reflexivity. Qed.

(** ** Membership in the calls of a run *)

Ltac in_cases :=
  repeat match goal with
  | H : In _ (_ ++ _) |- _ => apply in_app_or in H; destruct H as [H|H]
  | H : In _ (map _ _) |- _ =>
      apply in_map_iff in H; destruct H as (? & H & _)
  | H : In _ (_ :: _) |- _ => destruct H as [H|H]
  | H : In _ [] |- _ => destruct H
  end.

Lemma telemetry_calls_one env :
  exists s, telemetry_calls env = [EvAddRecurrentSeries s].
Proof.
  eexists. reflexivity.
Qed.

(** Up to the [is_initialized] query a run touches neither the cache, nor the
    aggregator, nor the callback tables, nor the container filter. *)
Lemma calls_to_boot_quiet env pv home h paths e :
  In e (calls_to_boot env pv home h paths ++ [EvGetError h]) ->
  is_InitModule e = false /\ is_AddRecurrentSeries e = false /\
  is_CacheSet e = false /\ e <> EvInitContainerFilter.
Proof.
  unfold calls_to_boot, override_calls, boot_calls.
  destruct (on_windows env); intros H; cbn [app] in H; in_cases; subst e;
    repeat split; discriminate.
Qed.

(** The handle of an [is_initialized] query is the non-null handle the run
    created. *)
Lemma IsInitialized_in_calls env paths h :
  In (EvIsInitialized h) (Initialize_calls env paths) ->
  exists pv home, selected env = Some (pv, home, h) /\ (h =? nil_ptr) = false.
Proof.
  unfold Initialize_calls.
  destruct (selected env) as [[[pv home] h0]|]; [| intros []].
  destruct (h0 =? nil_ptr) eqn:Hn.
  - intros H. in_cases. discriminate H.
  - assert (Hq : forall tail,
      (forall x, In x tail -> x <> EvIsInitialized h) ->
      In (EvIsInitialized h) (calls_to_boot env pv home h0 paths ++ tail) ->
      h = h0).
    { intros tail Htail H. unfold calls_to_boot, override_calls, boot_calls in H.
      destruct (on_windows env); cbn [app] in H; in_cases;
        try discriminate H; try (now injection H);
        now apply Htail in H. }
    intros H. exists pv, home.
    enough (h = h0) by (subst h0; now split).
    destruct (C_is_initialized env h0 =? 0); eapply Hq; try exact H.
    + clear H. intros x Hx. in_cases. subst x. discriminate.
    + clear H. intros x Hx. unfold calls_after_boot, version_calls, module_calls in Hx.
      destruct (telemetry_calls_one env) as [s Hs]. rewrite Hs in Hx.
      destruct (C_get_py_version env h0); cbn [app] in Hx; in_cases; subst x;
        discriminate.
Qed.

(** ** A boot that does not come up *)

(** C3.  When the run queries [is_initialized] on its handle and the answer
    is zero, [Initialize] returns an error whose message is the string read
    from [get_error]; the run binds no callback table, submits no series,
    does not touch the cache or the container filter, and leaves
    [PythonVersion] as it was. *)
Theorem Initialize_boot_failure env paths w h :
  In (EvIsInitialized h) (calls_of (Initialize env paths) w) ->
  C_is_initialized env h = 0 ->
  fst (Initialize env paths w) = Err (C_GoString (C_get_error env h)) /\
  PythonVersion (snd (Initialize env paths w)) = PythonVersion w /\
  forall e, In e (calls_of (Initialize env paths) w) ->
    is_InitModule e = false /\ is_AddRecurrentSeries e = false /\
    is_CacheSet e = false /\ e <> EvInitContainerFilter.
Proof.
  rewrite calls_of_Initialize. intros Hin Hzero.
  destruct (IsInitialized_in_calls _ _ _ Hin) as (pv & home & Hs & Hn).
  rewrite Initialize_outcome. unfold outcome, Initialize_calls.
  rewrite Hs, Hn, Hzero. cbn [Z.eqb fst snd extend assigned PythonVersion].
  repeat split; try (eapply calls_to_boot_quiet; eassumption).
Qed.

Lemma Initialize_boot_failure_witness :
  let env := linux_agent 3 0 None agent_6_14 in
  let paths := ["/etc/datadog-agent/checks.d"] in
  fst (Initialize env paths start)
    = Err "could not load runtime python for version 3" /\
  PythonVersion (snd (Initialize env paths start)) = "" /\
  forall e, In e (calls_of (Initialize env paths) start) ->
    is_InitModule e = false /\ is_AddRecurrentSeries e = false /\
    is_CacheSet e = false /\ e <> EvInitContainerFilter.
Proof.
  cbv zeta.
  apply (Initialize_boot_failure (linux_agent 3 0 None agent_6_14)
           ["/etc/datadog-agent/checks.d"] start 8192).
  - vm_compute. tauto.
  - reflexivity.
Defined.

(** ** A boot that comes up *)

(** What a run that returns nil went through. *)
Lemma Initialize_Ok_inv env paths w :
  fst (Initialize env paths w) = Ok tt ->
  exists pv home h,
    selected env = Some (pv, home, h) /\ (h =? nil_ptr) = false /\
    (C_is_initialized env h =? 0) = false /\
    Initialize env paths w
      = (Ok tt, extend (calls_to_boot env pv home h paths ++ calls_after_boot env h)
                       (assigned h (published_home env home)
                                 (published_version env h (PythonVersion w)) w)) /\
    calls_of (Initialize env paths) w
      = (calls_to_boot env pv home h paths ++ calls_after_boot env h)%list.
Proof.
  rewrite calls_of_Initialize, Initialize_outcome. unfold outcome, Initialize_calls.
  destruct (selected env) as [[[pv home] h]|]; [| discriminate].
  destruct (h =? nil_ptr) eqn:Hn; [discriminate |].
  destruct (C_is_initialized env h =? 0) eqn:Hz; [discriminate |].
  intros _. exists pv, home, h. repeat split; assumption.
Qed.

(** [strings.Replace(s, "\n", "", -1)] keeps the bytes of [s] that are not
    line feeds, in order. *)
Lemma Replace_from_LF c s :
  Replace_from LF "" 0 (-1) (String c s)
  = if is_LF c then Replace_from LF "" 0 (-1) s
    else String c (Replace_from LF "" 0 (-1) s).
Proof.
  change (Replace_from LF "" 0 (-1) (String c s))
    with (if match ascii_dec "010" c with
             | left _ => prefix "" s
             | right _ => false
             end
          then Replace_from LF "" 0 (-1) s
          else String c (Replace_from LF "" 0 (-1) s)).
  unfold is_LF. destruct (ascii_dec "010" c) as [<-|Hc].
  - now destruct s.
  - replace (Ascii.eqb c "010") with false; [reflexivity |].
    symmetry. apply Ascii.eqb_neq. congruence.
Qed.

Lemma Replace_LF_bytes s :
  bytes (strings_Replace s LF "" (-1)) = filter not_LF (bytes s).
Proof.
  change (strings_Replace s LF "" (-1)) with (Replace_from LF "" 0 (-1) s).
  induction s as [|c s IH]; [reflexivity |].
  rewrite Replace_from_LF. cbn [bytes list_ascii_of_string filter].
  unfold not_LF at 1. destruct (is_LF c); cbn [negb]; [exact IH |].
  cbn [bytes list_ascii_of_string]. f_equal. exact IH.
Qed.

Lemma filter_not_LF_clean s : Forall (fun c => c <> "010"%char) (filter not_LF (bytes s)).
Proof.
  apply Forall_forall. intros c Hc. apply filter_In in Hc. destruct Hc as [_ Hc].
  unfold not_LF, is_LF in Hc. intros ->. discriminate Hc.
Qed.

(** C5.  After a run that returns nil, if [get_py_version] gave [raw] for the
    handle, [PythonVersion] is [raw] without its line feeds, wherever they
    stood, and holds no line feed; the same string went to the cache under
    the agent key of "pythonVersion". *)
Theorem Initialize_version_strips_newlines env paths w raw :
  fst (Initialize env paths w) = Ok tt ->
  C_get_py_version env (six (snd (Initialize env paths w))) = Some raw ->
  let version := PythonVersion (snd (Initialize env paths w)) in
  version = strings_Replace raw LF "" (-1) /\
  bytes version = filter not_LF (bytes raw) /\
  Forall (fun c => c <> "010"%char) (bytes version) /\
  In (EvCacheSet (cache_BuildAgentKey env "pythonVersion") version)
     (calls_of (Initialize env paths) w).
Proof.
  intros Hok. destruct (Initialize_Ok_inv _ _ _ Hok) as (pv & home & h & _ & _ & _ & Hrun & Hcalls).
  rewrite Hcalls, Hrun. cbn [snd extend assigned six PythonVersion]. intros Hraw.
  unfold published_version, calls_after_boot, version_calls. rewrite Hraw.
  repeat split.
  - apply Replace_LF_bytes.
  - rewrite Replace_LF_bytes. apply filter_not_LF_clean.
  - apply in_or_app. right. cbn. right. left. reflexivity.
Qed.

Lemma Initialize_version_strips_newlines_witness :
  let env := linux_agent 3 1 (Some ("3.8" ++ LF ++ ".10" ++ LF)) agent_6_14 in
  let version := PythonVersion (snd (Initialize env [] start)) in
  version = "3.8.10" /\
  bytes version = filter not_LF (bytes ("3.8" ++ LF ++ ".10" ++ LF)) /\
  Forall (fun c => c <> "010"%char) (bytes version) /\
  In (EvCacheSet "agent/pythonVersion" version) (calls_of (Initialize env []) start).
Proof.
  cbv zeta.
  apply (Initialize_version_strips_newlines
           (linux_agent 3 1 (Some ("3.8" ++ LF ++ ".10" ++ LF)) agent_6_14)
           [] start ("3.8" ++ LF ++ ".10" ++ LF)); reflexivity.
Defined.

Example PythonVersion_3_8_10 :
  PythonVersion (snd (Initialize (linux_agent 3 1 (Some ("3.8.10" ++ LF)) agent_6_14)
                                 [] start)) = "3.8.10".
Proof. reflexivity. Qed.

(** ** Telemetry *)

Lemma filter_AddPythonPath (f : Event -> bool) h paths :
  (forall p, f (EvAddPythonPath h p) = false) ->
  filter f (map (EvAddPythonPath h) paths) = [].
Proof.
  intros Hf. induction paths as [|p ps IH]; [reflexivity |].
  cbn [map filter]. now rewrite Hf.
Qed.

Lemma selected_version env pv home h :
  selected env = Some (pv, home, h) ->
  config_python_version env = 2 \/ config_python_version env = 3.
Proof.
  unfold selected.
  destruct (config_python_version env =? 2) eqn:E2;
    [left; now apply Z.eqb_eq |].
  destruct (config_python_version env =? 3) eqn:E3;
    [right; now apply Z.eqb_eq | discriminate].
Qed.

Lemma calls_to_boot_no_series env pv home h paths :
  filter is_AddRecurrentSeries (calls_to_boot env pv home h paths) = [].
Proof.
  unfold calls_to_boot, boot_calls, override_calls.
  cbn [filter is_AddRecurrentSeries]. rewrite !filter_app.
  rewrite filter_AddPythonPath by reflexivity.
  now destruct (on_windows env).
Qed.

(** C7.  A run that returns nil submits exactly one series to
    [aggregator.AddRecurrentSeries]: a gauge named
    "datadog.agent.python.version" with the single point 1.0, whose first tag
    is "python_version:<configured version>", the version being 2 or 3.  When
    [version.New] fails that tag is the only one; when it succeeds the three
    agent version tags follow.  Whatever [version.New] answers, the run still
    returns nil. *)
Theorem Initialize_telemetry env paths w :
  fst (Initialize env paths w) = Ok tt ->
  (exists s,
     filter is_AddRecurrentSeries (calls_of (Initialize env paths) w)
       = [EvAddRecurrentSeries s] /\
     Name s = "datadog.agent.python.version" /\
     Points s = [ {| Value := 1%Q |} ] /\
     MType s = APIGaugeType /\
     (config_python_version env = 2 \/ config_python_version env = 3) /\
     Tags s =
       Sprintf_d "python_version:" (config_python_version env) ::
       match version_New env with
       | inl agentVersion =>
           [Sprintf_d "agent_version_major:" (Major agentVersion);
            Sprintf_d "agent_version_minor:" (Minor agentVersion);
            Sprintf_d "agent_version_patch:" (Patch agentVersion)]
       | inr _ => []
       end) /\
  forall r, fst (Initialize (with_version_New r env) paths w) = Ok tt.
Proof.
  intros Hok. split.
  - destruct (Initialize_Ok_inv _ _ _ Hok) as (pv & home & h & Hs & _ & _ & _ & Hcalls).
    rewrite Hcalls. eexists.
    split; [| split; [| split; [| split; [| split]]]];
      [| | | | exact (selected_version _ _ _ _ Hs) |].
    + rewrite filter_app, calls_to_boot_no_series.
      unfold calls_after_boot, version_calls, module_calls.
      destruct (C_get_py_version env h); reflexivity.
    + reflexivity.
    + reflexivity.
    + reflexivity.
    + cbn [Tags]. now destruct (version_New env).
  - intros r. revert Hok. rewrite !Initialize_outcome. unfold outcome.
    change (selected (with_version_New r env)) with (selected env).
    destruct (selected env) as [[[pv home] h]|]; [| discriminate].
    destruct (h =? nil_ptr); [discriminate |].
    change (C_is_initialized (with_version_New r env)) with (C_is_initialized env).
    destruct (C_is_initialized env h =? 0); [discriminate | reflexivity].
Qed.

Lemma Initialize_telemetry_witness :
  let env := linux_agent 3 1 (Some ("3.9.1" ++ LF)) (inr "unable to parse version string") in
  let paths := ["/etc/checks.d"; "/opt/checks.d"] in
  (exists s,
     filter is_AddRecurrentSeries (calls_of (Initialize env paths) start)
       = [EvAddRecurrentSeries s] /\
     Name s = "datadog.agent.python.version" /\
     Points s = [ {| Value := 1%Q |} ] /\
     MType s = APIGaugeType /\
     (3 = 2 \/ 3 = 3) /\
     Tags s = ["python_version:3"]) /\
  forall r, fst (Initialize (with_version_New r env) paths start) = Ok tt.
Proof.
  cbv zeta.
  apply (Initialize_telemetry
           (linux_agent 3 1 (Some ("3.9.1" ++ LF)) (inr "unable to parse version string"))
           ["/etc/checks.d"; "/opt/checks.d"] start).
  reflexivity.
Defined.

(** ** Order of the registrations *)

Lemma split_after_clean {A} (f : A -> bool) (P Q : list A) e post : forall pre,
  (forall x, In x P -> f x = false) -> f e = true ->
  (P ++ Q = pre ++ e :: post)%list ->
  exists mid, pre = (P ++ mid)%list /\ Q = (mid ++ e :: post)%list.
Proof.
  induction P as [|a P IH]; intros pre HP He Heq.
  - exists pre. now split.
  - destruct pre as [|b pre]; cbn [app] in Heq; injection Heq as Hab Heq.
    + subst a. rewrite (HP e (or_introl eq_refl)) in He. discriminate He.
    + subst b. destruct (IH pre) as (mid & -> & ->); auto.
      * intros x Hx. apply HP. now right.
      * exists mid. now split.
Qed.

Lemma calls_to_boot_Init env pv home h paths :
  In (EvInit h) (calls_to_boot env pv home h paths) /\
  In (EvIsInitialized h) (calls_to_boot env pv home h paths).
Proof.
  unfold calls_to_boot, boot_calls.
  split; right; apply in_or_app; right; apply in_or_app; right; cbn; tauto.
Qed.

(** C8.  Wherever a run binds a callback table into a handle, the run has by
    then called [C.init] on that handle and asked [is_initialized], the answer
    was not zero, and the run goes on to return nil; where the table is that
    of the containers module, [initContainerFilter] has run by then. *)
Theorem Initialize_registration_order env paths w pre m h post :
  calls_of (Initialize env paths) w = (pre ++ EvInitModule m h :: post)%list ->
  In (EvInit h) pre /\ In (EvIsInitialized h) pre /\
  C_is_initialized env h <> 0 /\
  fst (Initialize env paths w) = Ok tt /\
  match m with
  | ContainersModule => In EvInitContainerFilter pre
  | _ => True
  end.
Proof.
  rewrite calls_of_Initialize, Initialize_outcome. unfold Initialize_calls, outcome.
  intros Heq.
  assert (Hin : In (EvInitModule m h) (pre ++ EvInitModule m h :: post))
    by (apply in_or_app; right; now left).
  rewrite <- Heq in Hin.
  destruct (selected env) as [[[pv home] h0]|]; [| destruct Hin].
  destruct (h0 =? nil_ptr); [in_cases; discriminate Hin |].
  destruct (C_is_initialized env h0 =? 0) eqn:Hz.
  { apply calls_to_boot_quiet in Hin. destruct Hin as [Hin _]. discriminate Hin. }
  clear Hin. unfold calls_after_boot in Heq. rewrite !app_assoc in Heq.
  apply (split_after_clean is_InitModule) in Heq; [| | reflexivity].
  - destruct Heq as (mid & -> & Hmid).
    destruct (calls_to_boot_Init env pv home h0 paths) as [Hi Hq].
    assert (Hpre : forall tail, In (EvInit h0) (((calls_to_boot env pv home h0 paths
                     ++ version_calls env h0) ++ telemetry_calls env) ++ tail) /\
                   In (EvIsInitialized h0) (((calls_to_boot env pv home h0 paths
                     ++ version_calls env h0) ++ telemetry_calls env) ++ tail)).
    { intros tail. rewrite <- !app_assoc. split; apply in_or_app; now left. }
    apply Z.eqb_neq in Hz. unfold module_calls in Hmid.
    repeat match goal with
    | H : _ :: _ = (?l ++ _ :: _)%list |- _ =>
        destruct l; cbn [app] in H; inversion H; clear H; subst
    | H : [] = (?l ++ _ :: _)%list |- _ => destruct l; discriminate H
    end;
    (split; [apply Hpre | split; [apply Hpre | split; [exact Hz | split; [reflexivity |]]]]);
    try exact I.
    apply in_or_app. right. cbn. tauto.
  - intros x Hx. rewrite <- !app_assoc in Hx.
    apply in_app_or in Hx. destruct Hx as [Hx|Hx].
    + eapply calls_to_boot_quiet. apply in_or_app. left. exact Hx.
    + destruct (telemetry_calls_one env) as [s Hs]. rewrite Hs in Hx.
      unfold version_calls in Hx.
      destruct (C_get_py_version env h0); cbn [app] in Hx; in_cases; subst x;
        reflexivity.
Qed.

Lemma Initialize_registration_order_witness :
  let env := linux_agent 2 1 (Some ("2.7.16" ++ LF)) agent_6_14 in
  let pre := firstn 13 (calls_of (Initialize env ["/etc/checks.d"]) start) in
  In (EvInit 4096) pre /\ In (EvIsInitialized 4096) pre /\
  C_is_initialized env 4096 <> 0 /\
  fst (Initialize env ["/etc/checks.d"] start) = Ok tt /\
  In EvInitContainerFilter pre.
Proof.
  cbv zeta.
  apply (Initialize_registration_order
           (linux_agent 2 1 (Some ("2.7.16" ++ LF)) agent_6_14)
           ["/etc/checks.d"] start
           (firstn 13 (calls_of (Initialize
              (linux_agent 2 1 (Some ("2.7.16" ++ LF)) agent_6_14)
              ["/etc/checks.d"]) start))
           ContainersModule 4096
           [EvInitModule kubeutilModule 4096]).
  reflexivity.
Defined.

(** ** The home path on Windows *)

Lemma os_IsNotExist_cases err :
  os_IsNotExist err = true <-> err = Some ErrNotExist.
Proof.
  destruct err as [[]|]; cbn; split; congruence.
Qed.

Lemma on_windows_true env :
  runtime_GOOS env = "windows" -> on_windows env = true.
Proof.
  unfold on_windows. now intros ->.
Qed.

(** The variables and calls of a run that created a non-null handle. *)
Lemma Initialize_created env paths w pv home h :
  selected env = Some (pv, home, h) -> h <> nil_ptr ->
  PythonHome (snd (Initialize env paths w)) = published_home env home /\
  exists rest,
    calls_of (Initialize env paths) w
    = (calls_to_boot env pv home h paths ++ rest)%list /\
    forall p, ~ In (EvStat p) rest.
Proof.
  intros Hs Hn. apply Z.eqb_neq in Hn.
  rewrite calls_of_Initialize, Initialize_outcome. unfold Initialize_calls, outcome.
  rewrite Hs, Hn.
  destruct (C_is_initialized env h =? 0); (split; [reflexivity |]);
    eexists; (split; [reflexivity |]); intros p Hp.
  - in_cases. discriminate Hp.
  - unfold calls_after_boot, version_calls, module_calls in Hp.
    destruct (telemetry_calls_one env) as [s Hser]. rewrite Hser in Hp.
    destruct (C_get_py_version env h); cbn [app] in Hp; in_cases; discriminate Hp.
Qed.

(** C6, as the code has it.  On Windows, once the handle is created, the
    published home is the running executable's directory exactly when
    [os.Stat] of <compiled home>/lib/python2.7 fails with an error that
    [os.IsNotExist] accepts; on any other failure, as on success, it stays
    the compiled-in home.  What [os.Stat] answers never changes what
    [Initialize] returns. *)
Theorem Initialize_home_override env paths w pv home h :
  selected env = Some (pv, home, h) -> h <> nil_ptr ->
  runtime_GOOS env = "windows" ->
  PythonHome (snd (Initialize env paths w))
    = match os_Stat env (filepath_Join env [home; "lib"; "python2.7"]) with
      | Some ErrNotExist => fst (executable_Folder env)
      | Some _ => home
      | None => home
      end /\
  forall stat,
    fst (Initialize (with_os_Stat stat env) paths w) = fst (Initialize env paths w).
Proof.
  intros Hs Hn Hwin. split.
  - destruct (Initialize_created env paths w pv home h Hs Hn) as [-> _].
    unfold published_home, marker. rewrite (on_windows_true _ Hwin). cbn [andb].
    now destruct (os_Stat env (filepath_Join env [home; "lib"; "python2.7"]))
      as [[]|].
  - intros stat. rewrite !Initialize_outcome. unfold outcome.
    change (selected (with_os_Stat stat env)) with (selected env).
    rewrite Hs. destruct (h =? nil_ptr); [reflexivity |].
    change (C_is_initialized (with_os_Stat stat env)) with (C_is_initialized env).
    now destruct (C_is_initialized env h =? 0).
Qed.

Lemma Initialize_home_override_witness :
  let env := windows_agent 2 relocated in
  PythonHome (snd (Initialize env ["C:\ProgramData\Datadog\checks.d"] start))
    = "C:\Program Files\Datadog\Datadog Agent\embedded" /\
  forall stat,
    fst (Initialize (with_os_Stat stat env) ["C:\ProgramData\Datadog\checks.d"] start)
    = fst (Initialize env ["C:\ProgramData\Datadog\checks.d"] start).
Proof.
  cbv zeta.
  apply (Initialize_home_override (windows_agent 2 relocated)
           ["C:\ProgramData\Datadog\checks.d"] start
           Py2 "C:\omnibus-ruby\embedded2" 4096).
  - reflexivity.
  - discriminate.
  - reflexivity.
Defined.

(** C6 as written fails: a probe that fails with a permission error is a stat
    failure, and the published home stays the compiled-in one. *)
Lemma stat_failure_without_override :
  let env := windows_agent 2 access_denied in
  let w := snd (Initialize env [] start) in
  os_Stat env (filepath_Join env [pythonHome2 env; "lib"; "python2.7"])
    = Some ErrPermission /\
  In (EvStat (filepath_Join env [pythonHome2 env; "lib"; "python2.7"])) (trace w) /\
  fst (Initialize env [] start) = Ok tt /\
  PythonHome w = pythonHome2 env /\
  PythonHome w <> fst (executable_Folder env).
Proof.
  cbv zeta. repeat split.
  - vm_compute. tauto.
  - vm_compute. discriminate.
Qed.

(** C10.  On Windows with [python_version] 3 and a handle created, the run
    probes <pythonHome3>/lib/python2.7 and nothing else; when that directory
    does not exist the published home becomes the running executable's
    directory, whatever else the compiled-in home contains. *)
Theorem Initialize_python3_probes_python27 env paths w :
  runtime_GOOS env = "windows" ->
  config_python_version env = 3 ->
  C_make3 env (pythonHome3 env) <> nil_ptr ->
  os_Stat env (filepath_Join env [pythonHome3 env; "lib"; "python2.7"])
    = Some ErrNotExist ->
  PythonHome (snd (Initialize env paths w)) = fst (executable_Folder env) /\
  In (EvStat (filepath_Join env [pythonHome3 env; "lib"; "python2.7"]))
     (calls_of (Initialize env paths) w) /\
  forall p, In (EvStat p) (calls_of (Initialize env paths) w) ->
    p = filepath_Join env [pythonHome3 env; "lib"; "python2.7"].
Proof.
  intros Hwin Hv Hn Hstat.
  assert (Hs : selected env
               = Some (Py3, pythonHome3 env, C_make3 env (pythonHome3 env)))
    by (unfold selected; now rewrite Hv).
  destruct (Initialize_created env paths w _ _ _ Hs Hn) as [-> (rest & -> & Hrest)].
  unfold published_home, calls_to_boot, override_calls, boot_calls, marker.
  rewrite (on_windows_true _ Hwin), Hstat. cbn [andb os_IsNotExist app].
  split; [reflexivity | split].
  - right. right. now left.
  - intros p Hp. in_cases; try discriminate Hp.
    + now injection Hp.
    + now apply Hrest in Hp.
Qed.

Lemma Initialize_python3_probes_python27_witness :
  let env := windows_agent 3 only_python3 in
  os_Stat env "C:\omnibus-ruby\embedded3\lib\python3.7" = None /\
  PythonHome (snd (Initialize env [] start))
    = "C:\Program Files\Datadog\Datadog Agent\embedded" /\
  In (EvStat "C:\omnibus-ruby\embedded3\lib\python2.7")
     (calls_of (Initialize env []) start) /\
  forall p, In (EvStat p) (calls_of (Initialize env []) start) ->
    p = "C:\omnibus-ruby\embedded3\lib\python2.7".
Proof.
  cbv zeta. split; [reflexivity |].
  apply (Initialize_python3_probes_python27 (windows_agent 3 only_python3) [] start).
  - reflexivity.
  - reflexivity.
  - discriminate.
  - reflexivity.
Defined.

(** ** The home the handle is created with *)

(** Whatever the platform and the disk, the only [make] call of a run
    receives the compiled-in home of its version, and it is the first call of
    the run: the probe and the override come after it. *)
Lemma make_receives_compiled_home env paths w pv home :
  In (EvMake pv home) (calls_of (Initialize env paths) w) ->
  home = match pv with
         | Py2 => pythonHome2 env
         | Py3 => pythonHome3 env
         end /\
  hd_error (calls_of (Initialize env paths) w) = Some (EvMake pv home).
Proof.
  rewrite calls_of_Initialize. unfold Initialize_calls, selected.
  assert (Hgen : forall pv0 home0 h0 tail,
    (forall x, In x tail -> is_Make x = false) ->
    In (EvMake pv home) (calls_to_boot env pv0 home0 h0 paths ++ tail) ->
    pv = pv0 /\ home = home0).
  { intros pv0 home0 h0 tail Htail H.
    unfold calls_to_boot, override_calls, boot_calls in H.
    destruct (on_windows env); cbn [app] in H; in_cases;
      try discriminate H; try (injection H as <- <-; now split);
      apply Htail in H; discriminate H. }
  assert (Hfail : forall h0 x, In x [EvGetError h0] -> is_Make x = false).
  { intros h0 x Hx. in_cases. now subst x. }
  assert (Hup : forall h0 x, In x (calls_after_boot env h0) -> is_Make x = false).
  { intros h0 x Hx. unfold calls_after_boot, version_calls, module_calls in Hx.
    destruct (telemetry_calls_one env) as [s Hs]. rewrite Hs in Hx.
    destruct (C_get_py_version env h0); cbn [app] in Hx; in_cases; now subst x. }
  destruct (config_python_version env =? 2);
    [| destruct (config_python_version env =? 3); [| intros []]].
  all: match goal with
       | |- context [if ?h =? nil_ptr then _ else _] => destruct (h =? nil_ptr)
       end;
    [ intros H; in_cases; injection H as <- <-; now split |].
  all: match goal with
       | |- context [if ?c =? 0 then _ else _] => destruct (c =? 0)
       end;
    intros H;
    (apply Hgen in H;
       [destruct H as [-> ->]; now split | first [apply Hfail | apply Hup]]).
Qed.

(** C4 fails on the code.  On a Windows install moved away from the build
    paths, [C.make2] receives the compiled-in home first; the probe and the
    override come after it and change only the variable [PythonHome], which
    then differs from the home the handle was created with. *)
Theorem Initialize_makes_before_override :
  let env := windows_agent 2 relocated in
  let w := snd (Initialize env [] start) in
  fst (Initialize env [] start) = Ok tt /\
  firstn 3 (trace w)
    = [EvMake Py2 "C:\omnibus-ruby\embedded2"; EvExecutableFolder;
       EvStat "C:\omnibus-ruby\embedded2\lib\python2.7"] /\
  filter is_Make (trace w) = [EvMake Py2 "C:\omnibus-ruby\embedded2"] /\
  PythonHome w = "C:\Program Files\Datadog\Datadog Agent\embedded" /\
  fst (executable_Folder env) = "C:\Program Files\Datadog\Datadog Agent\embedded".
Proof.
  vm_compute. repeat split.
Qed.

(** * Further properties of the package *)

Lemma filter_none {A} (f : A -> bool) (l : list A) :
  (forall x, In x l -> f x = false) -> filter f l = [].
Proof.
  induction l as [|a l IH]; intros H; [reflexivity |].
  cbn [filter]. rewrite (H a (or_introl eq_refl)). apply IH.
  intros x Hx. apply H. now right.
Qed.

(** A test that rejects the calls made up to the [is_initialized] query
    finds nothing among them. *)
Lemma filter_calls_to_boot (f : Event -> bool) env pv home h paths :
  f (EvMake pv home) = false ->
  f EvExecutableFolder = false ->
  (forall p, f (EvStat p) = false) ->
  (forall p, f (EvAddPythonPath h p) = false) ->
  f (EvInit h) = false -> f (EvIsInitialized h) = false ->
  filter f (calls_to_boot env pv home h paths) = [].
Proof.
  intros Hm Hf Hs Hp Hi Hq. apply filter_none. intros x Hx.
  unfold calls_to_boot, override_calls, boot_calls in Hx.
  destruct (on_windows env); cbn [app] in Hx; in_cases; subst x; auto.
Qed.

Lemma version_calls_cases env h :
  version_calls env h = [EvGetPyVersion h] /\ C_get_py_version env h = None \/
  exists raw, C_get_py_version env h = Some raw /\
    version_calls env h
    = [EvGetPyVersion h;
       EvCacheSet (cache_BuildAgentKey env "pythonVersion")
                  (strings_Replace raw LF "" (-1))].
Proof.
  unfold version_calls. destruct (C_get_py_version env h) as [raw|].
  - right. now exists raw.
  - now left.
Qed.

(** A test that accepts only callback registrations finds nothing between
    the [is_initialized] query and the first helper. *)
Lemma filter_before_modules (f : Event -> bool) env h :
  f (EvGetPyVersion h) = false ->
  (forall k v, f (EvCacheSet k v) = false) ->
  (forall s, f (EvAddRecurrentSeries s) = false) ->
  filter f (version_calls env h ++ telemetry_calls env) = [].
Proof.
  intros Hv Hc Hs. apply filter_none. intros x Hx.
  destruct (telemetry_calls_one env) as [s Hser]. rewrite Hser in Hx.
  destruct (version_calls_cases env h) as [[E _]|(raw & _ & E)];
    rewrite E in Hx; cbn [app] in Hx; in_cases; subst x; auto.
Qed.

Lemma on_windows_false env :
  runtime_GOOS env <> "windows" -> on_windows env = false.
Proof.
  unfold on_windows. intros H. now apply String.eqb_neq.
Qed.

(** ** A handle that cannot be created *)

(** When [make2] or [make3] returns a null handle, [Initialize] returns
    "could not init six lib for python version <version>" after that one
    call: no probe, no search path, no [C.init].  By then [six] has been
    assigned the null handle, whatever it held before, and [PythonHome] the
    compiled-in home. *)
Theorem Initialize_null_handle env paths w pv home :
  selected env = Some (pv, home, nil_ptr) ->
  fst (Initialize env paths w)
    = Err (Sprintf_d "could not init six lib for python version "
                     (config_python_version env)) /\
  calls_of (Initialize env paths) w = [EvMake pv home] /\
  six (snd (Initialize env paths w)) = nil_ptr /\
  PythonHome (snd (Initialize env paths w)) = home /\
  PythonVersion (snd (Initialize env paths w)) = PythonVersion w.
Proof.
  intros Hs. rewrite calls_of_Initialize, Initialize_outcome.
  unfold Initialize_calls, outcome. rewrite Hs.
  change (nil_ptr =? nil_ptr) with true. cbv iota. repeat split.
Qed.

Lemma Initialize_null_handle_witness :
  let env := with_make (fun _ => nil_ptr) (windows_agent 3 relocated) in
  let w := set_six 4096 start in
  fst (Initialize env ["C:\checks.d"] w)
    = Err "could not init six lib for python version 3" /\
  calls_of (Initialize env ["C:\checks.d"]) w
    = [EvMake Py3 "C:\omnibus-ruby\embedded3"] /\
  six (snd (Initialize env ["C:\checks.d"] w)) = nil_ptr /\
  PythonHome (snd (Initialize env ["C:\checks.d"] w)) = "C:\omnibus-ruby\embedded3" /\
  PythonVersion (snd (Initialize env ["C:\checks.d"] w)) = "".
Proof.
  cbv zeta.
  apply (Initialize_null_handle
           (with_make (fun _ => nil_ptr) (windows_agent 3 relocated))
           ["C:\checks.d"] (set_six 4096 start) Py3 "C:\omnibus-ruby\embedded3").
  reflexivity.
Defined.

(** ** When [Initialize] returns nil *)

(** [Initialize] returns nil exactly when the configured version is 2 or 3,
    the matching [make] returned a non-null handle and [is_initialized]
    answered non-zero for it.  The search paths, the platform, the disk, the
    version string and [version.New] have no say. *)
Theorem Initialize_Ok_iff env paths w :
  fst (Initialize env paths w) = Ok tt <->
  (config_python_version env = 2 /\
   C_make2 env (pythonHome2 env) <> nil_ptr /\
   C_is_initialized env (C_make2 env (pythonHome2 env)) <> 0) \/
  (config_python_version env = 3 /\
   C_make3 env (pythonHome3 env) <> nil_ptr /\
   C_is_initialized env (C_make3 env (pythonHome3 env)) <> 0).
Proof.
  rewrite Initialize_outcome. unfold outcome, selected.
  destruct (config_python_version env =? 2) eqn:E2;
    [| destruct (config_python_version env =? 3) eqn:E3].
  - apply Z.eqb_eq in E2.
    destruct (C_make2 env (pythonHome2 env) =? nil_ptr) eqn:Hn;
      [| destruct (C_is_initialized env (C_make2 env (pythonHome2 env)) =? 0) eqn:Hz].
    + apply Z.eqb_eq in Hn. cbn [fst]. split; [discriminate |].
      intros [(_ & H & _)|(H & _)]; [contradiction | congruence].
    + apply Z.eqb_eq in Hz. cbn [fst]. split; [discriminate |].
      intros [(_ & _ & H)|(H & _)]; [contradiction | congruence].
    + apply Z.eqb_neq in Hn, Hz. cbn [fst]. split; [| reflexivity].
      intros _. left. repeat split; assumption.
  - apply Z.eqb_eq in E3.
    destruct (C_make3 env (pythonHome3 env) =? nil_ptr) eqn:Hn;
      [| destruct (C_is_initialized env (C_make3 env (pythonHome3 env)) =? 0) eqn:Hz].
    + apply Z.eqb_eq in Hn. cbn [fst]. split; [discriminate |].
      intros [(H & _)|(_ & H & _)]; [congruence | contradiction].
    + apply Z.eqb_eq in Hz. cbn [fst]. split; [discriminate |].
      intros [(H & _)|(_ & _ & H)]; [congruence | contradiction].
    + apply Z.eqb_neq in Hn, Hz. cbn [fst]. split; [| reflexivity].
      intros _. right. repeat split; assumption.
  - apply Z.eqb_neq in E2, E3. cbn [fst]. split; [discriminate |].
    intros [(H & _)|(H & _)]; contradiction.
Qed.

(** ** The search paths *)



(** ** Off Windows *)

(** On every platform other than Windows a run calls neither
    [executable.Folder] nor [os.Stat], and the published home is the
    compiled-in home of the configured version, also when the handle came
    back null. *)
Theorem Initialize_no_probe_off_windows env paths w pv home h :
  runtime_GOOS env <> "windows" ->
  selected env = Some (pv, home, h) ->
  PythonHome (snd (Initialize env paths w)) = home /\
  filter is_probe (calls_of (Initialize env paths) w) = [].
Proof.
  intros Hos Hs. apply on_windows_false in Hos.
  assert (Hboot : filter is_probe (calls_to_boot env pv home h paths) = []).
  { apply filter_none. intros x Hx.
    unfold calls_to_boot, override_calls, boot_calls in Hx. rewrite Hos in Hx.
    cbn [app] in Hx. in_cases; now subst x. }
  rewrite calls_of_Initialize, Initialize_outcome.
  unfold Initialize_calls, outcome, published_home. rewrite Hs, Hos. cbn [andb].
  destruct (h =? nil_ptr); [now split |].
  destruct (C_is_initialized env h =? 0); (split; [reflexivity |]);
    rewrite filter_app, Hboot; [reflexivity |].
  unfold calls_after_boot.
  rewrite app_assoc, filter_app, filter_before_modules by reflexivity.
  reflexivity.
Qed.

Lemma Initialize_no_probe_off_windows_witness :
  let env := with_os_Stat relocated (linux_agent 2 1 None agent_6_14) in
  PythonHome (snd (Initialize env [] start)) = "/opt/datadog-agent/embedded2" /\
  filter is_probe (calls_of (Initialize env []) start) = [].
Proof.
  cbv zeta.
  apply (Initialize_no_probe_off_windows
           (with_os_Stat relocated (linux_agent 2 1 None agent_6_14)) [] start
           Py2 "/opt/datadog-agent/embedded2" 4096).
  - discriminate.
  - reflexivity.
Defined.

(** ** A runtime without a version string *)

(** When the boot comes up but [get_py_version] returns a null string,
    [Initialize] still returns nil; [PythonVersion] keeps the value it had
    and nothing is written to the cache. *)
Theorem Initialize_without_version env paths w :
  fst (Initialize env paths w) = Ok tt ->
  C_get_py_version env (six (snd (Initialize env paths w))) = None ->
  PythonVersion (snd (Initialize env paths w)) = PythonVersion w /\
  filter is_CacheSet (calls_of (Initialize env paths) w) = [].
Proof.
  intros Hok.
  destruct (Initialize_Ok_inv _ _ _ Hok) as (pv & home & h & _ & _ & _ & Hrun & Hcalls).
  rewrite Hcalls, Hrun. cbn [snd extend assigned six PythonVersion]. intros Hraw.
  unfold published_version. rewrite Hraw. split; [reflexivity |].
  rewrite filter_app, filter_calls_to_boot by reflexivity.
  unfold calls_after_boot, version_calls. rewrite Hraw.
  destruct (telemetry_calls_one env) as [s ->]. reflexivity.
Qed.

Lemma Initialize_without_version_witness :
  let env := linux_agent 3 1 None agent_6_14 in
  PythonVersion (snd (Initialize env [] start)) = "" /\
  filter is_CacheSet (calls_of (Initialize env []) start) = [].
Proof.
  cbv zeta.
  apply (Initialize_without_version (linux_agent 3 1 None agent_6_14) [] start);
    reflexivity.
Defined.

(** ** The helpers of a run that comes up *)

(** A run that returns nil ends with the seven helpers and
    [initContainerFilter], each once and in this order, all on the handle left
    in [six]: free callback, datadog_agent, aggregator, _util, tagger,
    container filter, containers, kubeutil.  No helper is called before
    them. *)
Theorem Initialize_helpers_last env paths w :
  fst (Initialize env paths w) = Ok tt ->
  let h := six (snd (Initialize env paths w)) in
  exists pre,
    calls_of (Initialize env paths) w
    = (pre ++ [EvInitModule CgoFree h; EvInitModule DatadogAgentModule h;
               EvInitModule AggregatorModule h; EvInitModule UtilModule h;
               EvInitModule TaggerModule h; EvInitContainerFilter;
               EvInitModule ContainersModule h; EvInitModule kubeutilModule h])%list /\
    filter is_InitModule pre = [] /\
    ~ In EvInitContainerFilter pre.
Proof.
  intros Hok.
  destruct (Initialize_Ok_inv _ _ _ Hok) as (pv & home & h & _ & _ & _ & Hrun & Hcalls).
  rewrite Hcalls, Hrun. cbn [snd extend assigned six]. cbv zeta.
  exists (calls_to_boot env pv home h paths ++ version_calls env h ++ telemetry_calls env)%list.
  split; [| split].
  - unfold calls_after_boot, module_calls. now rewrite <- !app_assoc.
  - rewrite filter_app, filter_calls_to_boot, filter_before_modules by reflexivity.
    reflexivity.
  - intros H. apply in_app_or in H. destruct H as [H|H].
    + assert (Hq : In EvInitContainerFilter
                      (calls_to_boot env pv home h paths ++ [EvGetError h]))
        by (apply in_or_app; now left).
      apply calls_to_boot_quiet in Hq. now destruct Hq as (_ & _ & _ & Hq).
    + destruct (telemetry_calls_one env) as [s Hser]. rewrite Hser in H.
      destruct (version_calls_cases env h) as [[E _]|(raw & _ & E)];
        rewrite E in H; cbn [app] in H; in_cases; discriminate H.
Qed.

Lemma Initialize_helpers_last_witness :
  let env := linux_agent 2 1 (Some ("2.7.16" ++ LF)) agent_6_14 in
  exists pre,
    calls_of (Initialize env ["/etc/checks.d"]) start
    = (pre ++ [EvInitModule CgoFree 4096; EvInitModule DatadogAgentModule 4096;
               EvInitModule AggregatorModule 4096; EvInitModule UtilModule 4096;
               EvInitModule TaggerModule 4096; EvInitContainerFilter;
               EvInitModule ContainersModule 4096;
               EvInitModule kubeutilModule 4096])%list /\
    filter is_InitModule pre = [] /\
    ~ In EvInitContainerFilter pre.
Proof.
  cbv zeta.
  apply (Initialize_helpers_last (linux_agent 2 1 (Some ("2.7.16" ++ LF)) agent_6_14)
           ["/etc/checks.d"] start).
  reflexivity.
Defined.

(** ** What [Initialize] does not look at *)



(** [PythonPath] is assigned neither by [Initialize] nor by [Destroy]. *)
Theorem PythonPath_untouched env paths w :
  PythonPath (snd (Initialize env paths w)) = PythonPath w /\
  PythonPath (snd (Destroy w)) = PythonPath w /\
  PythonPath (snd (Destroy (snd (Initialize env paths w)))) = PythonPath w.
Proof.
  assert (Hi : PythonPath (snd (Initialize env paths w)) = PythonPath w).
  { rewrite Initialize_outcome. unfold outcome.
    destruct (selected env) as [[[pv home] h]|]; [| reflexivity].
    destruct (h =? nil_ptr); [reflexivity |].
    now destruct (C_is_initialized env h =? 0). }
  assert (Hd : forall w0, PythonPath (snd (Destroy w0)) = PythonPath w0).
  { intros w0. rewrite Destroy_run. cbn [snd]. now destruct (six w0 =? nil_ptr). }
  split; [exact Hi | split; [apply Hd |]]. now rewrite Hd.
Qed.

(** When [executable.Folder] fails on Windows and the marker directory does
    not exist, the error is dropped: the published home is whatever path came
    back with the error, and the run is, call for call and variable for
    variable, the run in which [executable.Folder] succeeds with that path. *)
Theorem Initialize_Folder_failure env paths w pv home h p e :
  executable_Folder env = (p, Some e) ->
  selected env = Some (pv, home, h) -> h <> nil_ptr ->
  runtime_GOOS env = "windows" ->
  os_Stat env (filepath_Join env [home; "lib"; "python2.7"]) = Some ErrNotExist ->
  PythonHome (snd (Initialize env paths w)) = p /\
  Initialize env paths w
  = Initialize (with_executable_Folder (p, None) env) paths w.
Proof.
  intros HF Hs Hn Hwin Hstat. split.
  - destruct (Initialize_created env paths w pv home h Hs Hn) as [-> _].
    unfold published_home, marker.
    now rewrite (on_windows_true _ Hwin), Hstat, HF.
  - rewrite !Initialize_outcome. unfold outcome, published_home.
    change (selected (with_executable_Folder (p, None) env)) with (selected env).
    change (executable_Folder (with_executable_Folder (p, None) env)) with (p, @None error).
    rewrite HF. reflexivity.
Qed.

Lemma Initialize_Folder_failure_witness :
  let env := with_executable_Folder ("", Some "GetModuleFileName failed")
               (windows_agent 2 relocated) in
  PythonHome (snd (Initialize env [] start)) = "" /\
  Initialize env [] start
  = Initialize (with_executable_Folder ("", None) env) [] start.
Proof.
  cbv zeta.
  apply (Initialize_Folder_failure
           (with_executable_Folder ("", Some "GetModuleFileName failed")
              (windows_agent 2 relocated))
           [] start Py2 "C:\omnibus-ruby\embedded2" 4096
           "" "GetModuleFileName failed").
  - reflexivity.
  - reflexivity.
  - discriminate.
  - reflexivity.
  - reflexivity.
Defined.

(** ** [Destroy] after [Initialize] *)

(** Once [make2] or [make3] has returned a non-null handle, it is what
    [GetSix] returns after [Initialize], whether the boot came up or not, and
    a [Destroy] then makes exactly one call: [C.destroy] on it. *)
Theorem Destroy_releases_created_handle env paths w pv home h :
  selected env = Some (pv, home, h) -> h <> nil_ptr ->
  fst (GetSix (snd (Initialize env paths w))) = Ok h /\
  calls_of Destroy (snd (Initialize env paths w)) = [EvDestroy h] /\
  fst (Destroy (snd (Initialize env paths w))) = Ok tt.
Proof.
  intros Hs Hn.
  assert (Hsix : six (snd (Initialize env paths w)) = h).
  { rewrite Initialize_outcome. unfold outcome. rewrite Hs.
    apply Z.eqb_neq in Hn. rewrite Hn.
    now destruct (C_is_initialized env h =? 0). }
  unfold GetSix, read. cbn [fst]. rewrite Hsix. split; [reflexivity |].
  unfold calls_of. rewrite Destroy_run, Hsix. cbn [fst snd].
  apply Z.eqb_neq in Hn. rewrite Hn. cbn [trace record]. split; [| reflexivity].
  apply skipn_length_app.
Qed.

Lemma Destroy_releases_created_handle_witness :
  let env := linux_agent 3 0 None agent_6_14 in
  fst (Initialize env [] start) = Err "could not load runtime python for version 3" /\
  fst (GetSix (snd (Initialize env [] start))) = Ok 8192 /\
  calls_of Destroy (snd (Initialize env [] start)) = [EvDestroy 8192] /\
  fst (Destroy (snd (Initialize env [] start))) = Ok tt.
Proof.
  cbv zeta. split; [reflexivity |].
  apply (Destroy_releases_created_handle (linux_agent 3 0 None agent_6_14) [] start
           Py3 "/opt/datadog-agent/embedded3" 8192).
  - reflexivity.
  - discriminate.
Defined.

(** ** A run that fails *)

(** Only the helper calls reach a setter. *)
Lemma bindings_none (l : list Event) :
  (forall x, In x l -> is_InitModule x = false) -> Cgo.bindings l = [].
Proof.
  induction l as [|a l IH]; intros H; [reflexivity |].
  unfold Cgo.bindings. cbn [flat_map].
  assert (Ha : is_InitModule a = false) by (apply H; now left).
  destruct a; try discriminate Ha; cbn [Cgo.setters_of app];
    apply IH; intros x Hx; apply H; now right.
Qed.

(** Whatever makes [Initialize] return an error, the run has bound no
    callback, submitted no series and written nothing to the cache, and
    [PythonVersion] is what it was: empty, in a process where no run has come
    up before. *)
Theorem Initialize_failure_leaves_no_trace env paths w e :
  fst (Initialize env paths w) = Err e ->
  PythonVersion (snd (Initialize env paths w)) = PythonVersion w /\
  filter is_InitModule (calls_of (Initialize env paths) w) = [] /\
  filter is_AddRecurrentSeries (calls_of (Initialize env paths) w) = [] /\
  filter is_CacheSet (calls_of (Initialize env paths) w) = [] /\
  Cgo.bindings (calls_of (Initialize env paths) w) = [].
Proof.
  rewrite calls_of_Initialize, Initialize_outcome. unfold Initialize_calls, outcome.
  destruct (selected env) as [[[pv home] h]|]; [| now repeat split].
  destruct (h =? nil_ptr); [now repeat split |].
  destruct (C_is_initialized env h =? 0); [| discriminate].
  intros _. cbn [snd extend assigned PythonVersion].
  rewrite !filter_app, !filter_calls_to_boot by reflexivity.
  repeat split.
  apply bindings_none. intros x Hx. now apply calls_to_boot_quiet in Hx.
Qed.

Lemma Initialize_failure_leaves_no_trace_witness :
  let env := with_make (fun _ => nil_ptr) (linux_agent 2 1 None agent_6_14) in
  PythonVersion (snd (Initialize env [] start)) = "" /\
  filter is_InitModule (calls_of (Initialize env []) start) = [] /\
  filter is_AddRecurrentSeries (calls_of (Initialize env []) start) = [] /\
  filter is_CacheSet (calls_of (Initialize env []) start) = [] /\
  Cgo.bindings (calls_of (Initialize env []) start) = [].
Proof.
  cbv zeta.
  apply (Initialize_failure_leaves_no_trace
           (with_make (fun _ => nil_ptr) (linux_agent 2 1 None agent_6_14)) [] start
           "could not init six lib for python version 2").
  reflexivity.
Defined.

(** ** The setters behind the helpers *)

Lemma filter_nil_inv {A} (f : A -> bool) (l : list A) :
  filter f l = [] -> forall x, In x l -> f x = false.
Proof.
  intros H x Hx. destruct (f x) eqn:E; [| reflexivity].
  assert (Hin : In x (filter f l)) by (apply filter_In; now split).
  rewrite H in Hin. destruct Hin.
Qed.

(** In a run that returns nil the setter calls are those of the seven
    helpers in the order [Initialize] calls them, all on the handle left in
    [six].  Each of the fifteen setters is called exactly once, and no
    callback is handed to two setters. *)
Theorem Initialize_binds_each_setter_once env paths w :
  fst (Initialize env paths w) = Ok tt ->
  let h := six (snd (Initialize env paths w)) in
  let b := Cgo.bindings (calls_of (Initialize env paths) w) in
  b = map (fun sc => (h, fst sc, snd sc))
          (Cgo.initCgoFree ++ Cgo.initDatadogAgentModule
             ++ Cgo.initAggregatorModule ++ Cgo.initUtilModule
             ++ Cgo.initTaggerModule ++ Cgo.initContainersModule
             ++ Cgo.initkubeutilModule)%list /\
  NoDup (map (fun x => snd (fst x)) b) /\
  (forall s : Cgo.Setter, In s (map (fun x => snd (fst x)) b)) /\
  NoDup (map snd b).
Proof.
  intros Hok.
  destruct (Initialize_Ok_inv _ _ _ Hok) as (pv & home & h & _ & _ & _ & Hrun & Hcalls).
  rewrite Hcalls, Hrun. cbn [snd extend assigned six]. cbv zeta.
  assert (Hb : Cgo.bindings (calls_to_boot env pv home h paths ++ calls_after_boot env h)
               = Cgo.bindings (module_calls h)).
  { unfold calls_after_boot, Cgo.bindings. rewrite app_assoc, app_assoc, flat_map_app.
    rewrite <- app_assoc.
    fold (Cgo.bindings (calls_to_boot env pv home h paths
                          ++ version_calls env h ++ telemetry_calls env)).
    rewrite bindings_none; [reflexivity |].
    apply filter_nil_inv.
    rewrite filter_app, filter_calls_to_boot, filter_before_modules by reflexivity.
    reflexivity. }
  rewrite Hb. cbn. split; [reflexivity | split; [| split]].
  - repeat constructor; cbn; intuition discriminate.
  - intros s. destruct s; tauto.
  - repeat constructor; cbn; intuition discriminate.
Qed.

Lemma Initialize_binds_each_setter_once_witness :
  let env := windows_agent 3 only_python3 in
  let b := Cgo.bindings (calls_of (Initialize env []) start) in
  b = map (fun sc => (8192, fst sc, snd sc))
          (Cgo.initCgoFree ++ Cgo.initDatadogAgentModule
             ++ Cgo.initAggregatorModule ++ Cgo.initUtilModule
             ++ Cgo.initTaggerModule ++ Cgo.initContainersModule
             ++ Cgo.initkubeutilModule)%list /\
  NoDup (map (fun x => snd (fst x)) b) /\
  (forall s : Cgo.Setter, In s (map (fun x => snd (fst x)) b)) /\
  NoDup (map snd b).
Proof.
  cbv zeta.
  apply (Initialize_binds_each_setter_once (windows_agent 3 only_python3) [] start).
  reflexivity.
Defined.

(** ** More on the version string *)

Lemma Replace_LF_id s :
  Forall (fun c => c <> "010"%char) (bytes s) ->
  strings_Replace s LF "" (-1) = s.
Proof.
  change (strings_Replace s LF "" (-1)) with (Replace_from LF "" 0 (-1) s).
  induction s as [|c s IH]; intros H; [reflexivity |].
  cbn [bytes list_ascii_of_string] in H. inversion H as [|? ? Hc Hs]; subst.
  rewrite Replace_from_LF. unfold is_LF.
  replace (Ascii.eqb c "010") with false by (symmetry; now apply Ascii.eqb_neq).
  f_equal. now apply IH.
Qed.

(** A version string without a line feed is published as it is: spaces,
    tabs and carriage returns stay. *)
Theorem Initialize_version_kept env paths w raw :
  fst (Initialize env paths w) = Ok tt ->
  C_get_py_version env (six (snd (Initialize env paths w))) = Some raw ->
  Forall (fun c => c <> "010"%char) (bytes raw) ->
  PythonVersion (snd (Initialize env paths w)) = raw.
Proof.
  intros Hok.
  destruct (Initialize_Ok_inv _ _ _ Hok) as (pv & home & h & _ & _ & _ & Hrun & _).
  rewrite Hrun. cbn [snd extend assigned six PythonVersion]. intros Hraw Hclean.
  unfold published_version. rewrite Hraw. now apply Replace_LF_id.
Qed.

Lemma Initialize_version_kept_witness :
  let raw := String "013"%char "2.7.16 (default, Oct 10 2019) " in
  let env := linux_agent 2 1 (Some raw) agent_6_14 in
  PythonVersion (snd (Initialize env [] start)) = raw.
Proof.
  cbv zeta.
  apply (Initialize_version_kept
           (linux_agent 2 1
              (Some (String "013"%char "2.7.16 (default, Oct 10 2019) ")) agent_6_14)
           [] start).
  - reflexivity.
  - reflexivity.
  - repeat constructor; discriminate.
Defined.

(** Removing the line feeds of a string removes them piece by piece: the two
    lines of a [sys.version] are published joined, with nothing put between
    them; and a second removal changes nothing. *)
Theorem Replace_LF_app a b :
  strings_Replace (a ++ String "010"%char b) LF "" (-1)
    = strings_Replace a LF "" (-1) ++ strings_Replace b LF "" (-1) /\
  strings_Replace (a ++ b) LF "" (-1)
    = strings_Replace a LF "" (-1) ++ strings_Replace b LF "" (-1) /\
  strings_Replace (strings_Replace a LF "" (-1)) LF "" (-1)
    = strings_Replace a LF "" (-1).
Proof.
  assert (Happ : forall x y, strings_Replace (x ++ y) LF "" (-1)
            = strings_Replace x LF "" (-1) ++ strings_Replace y LF "" (-1)).
  { intros x y.
    change (Replace_from LF "" 0 (-1) (x ++ y)
            = Replace_from LF "" 0 (-1) x ++ Replace_from LF "" 0 (-1) y).
    induction x as [|c x IH]; [reflexivity |].
    cbn [String.append]. rewrite !Replace_from_LF.
    destruct (is_LF c); [exact IH |]. cbn [String.append]. now rewrite IH. }
  split; [| split].
  - rewrite Happ. f_equal.
    change (Replace_from LF "" 0 (-1) (String "010" b) = Replace_from LF "" 0 (-1) b).
    now rewrite Replace_from_LF.
  - apply Happ.
  - apply Replace_LF_id. rewrite Replace_LF_bytes. apply filter_not_LF_clean.
Qed.
